(** * printipi: the axis-stepper selection protocol and the dumb scheduler

    A shallow embedding of [src/motion/axisstepper.h] and
    [src/drivers/rpi/dumbhardwarescheduler.h].

    - a C++ [float] is an IEEE-754 binary32 value: a [spec_float] of the
      Standard Library that is valid for precision 24 and exponent bound 128;
    - a [std::tuple] of steppers is a list, a reference into the tuple is a
      position of the list;
    - a call that may run into [assert(false)] returns an [outcome]. *)

From Stdlib Require Import ZArith SpecFloat.
From stdpp Require Import base option list.

Local Open Scope Z_scope.

(** ** binary32 floats *)

Module Float32.

Definition prec : Z := 24.
Definition emax : Z := 128.

(** The values a [float] variable can hold. *)
Record float : Type := Float {
  repr : spec_float;
  repr_valid : valid_binary prec emax repr = true
}.

(** The literal [0] of [m1.time <= 0], converted from [int] to [float]. *)
Definition zero : float := Float (S754_zero false) eq_refl.
Definition nan : float := Float S754_nan eq_refl.
Definition infinity : float := Float (S754_infinity false) eq_refl.

(** [x <= y], [x < y] and [std::isnan(x)]: every comparison against a NaN
    is false. *)
Definition leb (x y : float) : bool := SFleb (repr x) (repr y).
Definition ltb (x y : float) : bool := SFltb (repr x) (repr y).
Definition isnan (x : float) : bool :=
  match repr x with S754_nan => true | _ => false end.

(** The three semantic states of a step time, and [positive] for [0 < x]
    (finite or [+inf]). *)
Definition finite_positive (x : float) : bool :=
  match repr x with S754_finite false _ _ => true | _ => false end.
Definition non_positive (x : float) : bool := leb x zero.
Definition positive (x : float) : bool := ltb zero x.

(** A few constants: 1.0f, 1.5f, 2.0f and -1.0f. *)
Definition one : float := Float (S754_finite false 8388608 (-23)) eq_refl.
Definition one_and_half : float := Float (S754_finite false 12582912 (-23)) eq_refl.
Definition two : float := Float (S754_finite false 8388608 (-22)) eq_refl.
Definition minus_one : float := Float (S754_finite true 8388608 (-23)) eq_refl.

End Float32.

Import Float32.

(** ** Outcomes: normal completion or a failed [assert] *)

Inductive outcome (A : Type) : Type :=
| Done (a : A)
| AssertionFailed.
Arguments Done {A} a.
Arguments AssertionFailed {A}.

#[export] Instance outcome_ret : MRet outcome := fun A a => Done a.
#[export] Instance outcome_bind : MBind outcome := fun A B f m =>
  match m with
  | Done a => f a
  | AssertionFailed => AssertionFailed
  end.

(** ** [namespace motion] *)

Module motion.

Inductive StepDirection : Type :=
| StepBackward
| StepForward.

(** [stepDirFromSign] and [stepDirToSigned] at an integer type. *)
Definition stepDirFromSign (dir : Z) : StepDirection :=
  if dir <? 0 then StepBackward else StepForward.
Definition stepDirToSigned (dir : StepDirection) : Z :=
  match dir with StepBackward => -1 | StepForward => 1 end.

(** The same two templates at [T = float]: the literals [0], [-1] and [1]
    are converted to [float]. *)
Definition stepDirFromSign_float (dir : float) : StepDirection :=
  if ltb dir zero then StepBackward else StepForward.
Definition stepDirToSigned_float (dir : StepDirection) : float :=
  match dir with StepBackward => minus_one | StepForward => one end.

(** The fields of the base class. [AxisIdType] is declared in
    [compileflags.h], which is not part of the sources; [index()] returns
    the field as an [int]. *)
Record AxisStepper : Type := mkAxisStepper {
  _index : Z;
  time : float;
  direction : StepDirection
}.

Definition index (self : AxisStepper) : Z := _index self.

(** [AxisStepper] is an interface: every concrete stepper type [T] is an
    [AxisStepper] (the upcast [base]) and provides [_nextStep]; the methods
    act on their own object only. *)
Class AxisStepperImpl (T : Type) : Type := {
  base : T → AxisStepper;
  _nextStep : bool → T → outcome T
}.

(** The path-initialisation methods [beginLine] and [beginArc] a stepper type
    has to provide for [initAxisSteppers] and [initAxisArcSteppers]. The
    coordinate map and the vector types are template parameters or come from
    headers that are not part of the sources, they stay abstract. *)
Class PathStepper (CoordMapT Vector3f Vector4f T : Type) : Type := {
  beginLine : CoordMapT → list Z → Vector4f → T → outcome T;
  beginArc : CoordMapT → list Z → Vector3f → Vector3f → Vector3f →
             float → float → float → T → outcome T
}.

(** The base class itself: [AxisStepper::_nextStep] is
    [assert(false && "... must be overriden ...")]. *)
#[export] Instance AxisStepper_impl : AxisStepperImpl AxisStepper := {
  base := fun s => s;
  _nextStep := fun _ _ => AssertionFailed
}.

(** [std::size_t] on the Raspberry Pi, and the conversion of the [int] that
    [index()] returns to it. *)
Definition size_t_bits : Z := 32.
Definition to_size_t (i : Z) : Z := i mod 2 ^ size_t_bits.

Section AxisSet.
Context {T : Type} `{AxisStepperImpl T}.

(** [_AxisStepper__getNextTime<TupleT, idx>]: the position of the chosen
    stepper among positions [0..idx]. [std::get] outside the tuple does not
    compile, the lookup then gives [None]. *)
Fixpoint _AxisStepper__getNextTime (axes : list T) (idx : nat) : option nat :=
  match idx with
  | O => _ ← axes !! O; Some O
  | S idx' =>
      m1 ← _AxisStepper__getNextTime axes idx';
      a1 ← axes !! m1;
      a2 ← axes !! idx;
      let t1 := time (base a1) in
      let t2 := time (base a2) in
      if leb t1 zero then Some idx
      else if leb t2 zero then Some m1
      else if ltb t1 t2 || isnan t2 then Some m1 else Some idx
  end.

Definition getNextTime (axes : list T) : option nat :=
  _AxisStepper__getNextTime axes (length axes - 1).

(** A method call through a reference to element [i] of the tuple. The
    functors below only ever get positions inside the tuple; a position
    outside is reported as a failure, never as a silent success. *)
Definition with_ref (i : nat) (g : T → outcome T) (axes : list T)
  : outcome (list T) :=
  match axes !! i with
  | Some s => s' ← g s; mret (<[i:=s']> axes)
  | None => AssertionFailed
  end.

(** Modelled from the spec: [callOnAll] of [common/tupleutil.h] is not part
    of the sources. It is the single pass over the tuple that calls the
    functor once for every position, with the position, the element and the
    extra arguments, from position 0 upwards; the comment above
    [_AxisStepper__nextStep] describes the same iteration through all
    steppers. *)
Fixpoint __callOnAll (IdxPlusOne : nat)
  (f : nat → list T → outcome (list T)) (t : list T) : outcome (list T) :=
  match IdxPlusOne with
  | O => mret t
  | S i => t' ← __callOnAll i f t; f i t'
  end.

Definition callOnAll (t : list T) (f : nat → list T → outcome (list T))
  : outcome (list T) :=
  __callOnAll (length t) f t.

(** [_AxisStepper__nextStep::operator()]. *)
Definition _AxisStepper__nextStep (myIdx : nat) (desiredIdx : Z)
  (useEndstops : bool) (axes : list T) : outcome (list T) :=
  if decide (desiredIdx = Z.of_nat myIdx)
  then with_ref myIdx (_nextStep useEndstops) axes
  else mret axes.

(** [AxisStepper::nextStep], called on the stepper [this]. *)
Definition nextStep (this : AxisStepper) (axes : list T) (useEndstops : bool)
  : outcome (list T) :=
  callOnAll axes
    (fun myIdx => _AxisStepper__nextStep myIdx (to_size_t (index this)) useEndstops).

Section Init.
Context {CoordMapT Vector3f Vector4f : Type}
  `{PathStepper CoordMapT Vector3f Vector4f T}.

(** [_AxisStepper__initAxisSteppers::operator()]: both calls go to element
    [MyIdx] of the tuple that [steppers] points to. *)
Definition _AxisStepper__initAxisSteppers (MyIdx : nat) (useEndstops : bool)
  (map : CoordMapT) (curPos : list Z) (vel : Vector4f) (steppers : list T)
  : outcome (list T) :=
  steppers' ← with_ref MyIdx (beginLine map curPos vel) steppers;
  with_ref MyIdx (_nextStep useEndstops) steppers'.

(** [_AxisStepper__initAxisArcSteppers::operator()]. *)
Definition _AxisStepper__initAxisArcSteppers (MyIdx : nat) (useEndstops : bool)
  (map : CoordMapT) (curPos : list Z) (center u v : Vector3f)
  (arcRad arcVel extVel : float) (steppers : list T) : outcome (list T) :=
  steppers' ← with_ref MyIdx
    (beginArc map curPos center u v arcRad arcVel extVel) steppers;
  with_ref MyIdx (_nextStep useEndstops) steppers'.

Definition initAxisSteppers (steppers : list T) (useEndstops : bool)
  (map : CoordMapT) (curPos : list Z) (vel : Vector4f) : outcome (list T) :=
  callOnAll steppers
    (fun MyIdx => _AxisStepper__initAxisSteppers MyIdx useEndstops map curPos vel).

Definition initAxisArcSteppers (steppers : list T) (useEndstops : bool)
  (map : CoordMapT) (curPos : list Z) (center u v : Vector3f)
  (arcRad arcVel extVel : float) : outcome (list T) :=
  callOnAll steppers
    (fun MyIdx => _AxisStepper__initAxisArcSteppers MyIdx useEndstops map curPos
                    center u v arcRad arcVel extVel).

End Init.
End AxisSet.

End motion.

(** ** [namespace rpi] *)

Module rpi.

(** [EventClockT::time_point]: a number of clock ticks. *)
Definition time_point : Type := Z.

(** The scheduler object has no data members. *)
Inductive DumbHardwareScheduler : Type := mkDumbHardwareScheduler.

Definition schedTime (self : DumbHardwareScheduler) (evtTime : time_point)
  : time_point := evtTime.

(** Modelled from the spec: [OutputEvent] of [outputevent.h] is not part of
    the sources. It is the immutable record of a pin identifier, a desired
    logical state and an absolute time; the scheduler reads it through
    [pinId()] and [state()]. *)
Record OutputEvent : Type := mkOutputEvent {
  pinId : Z;
  state : bool;
  evt_time : time_point
}.

(** The GPIO layer [mitpi] is outside the sources: what the scheduler does
    to it is the sequence of calls it makes, oldest first. *)
Inductive mitpi_call : Type :=
| mitpi_init
| mitpi_setPinState (pin : Z) (st : bool).

Definition hardware : Type := list mitpi_call.

(** The constructor. *)
Definition DumbHardwareScheduler_new (hw : hardware)
  : DumbHardwareScheduler * hardware :=
  (mkDumbHardwareScheduler, hw ++ [mitpi_init]).

Definition queue (self : DumbHardwareScheduler) (e : OutputEvent) (hw : hardware)
  : hardware :=
  hw ++ [mitpi_setPinState (pinId e) (state e)].

(** The body of [queuePwm] is empty. *)
Definition queuePwm (self : DumbHardwareScheduler) (pin : Z)
  (ratio maxPeriod : float) (hw : hardware) : hardware := hw.

(** A client of the scheduler: one call of a public method, and a sequence
    of them on the same object. *)
Inductive scheduler_call : Type :=
| Queue (e : OutputEvent)
| QueuePwm (pin : Z) (ratio maxPeriod : float)
| SchedTime (evtTime : time_point).

Definition perform (self : DumbHardwareScheduler) (hw : hardware)
  (c : scheduler_call) : hardware :=
  match c with
  | Queue e => queue self e hw
  | QueuePwm pin ratio maxPeriod => queuePwm self pin ratio maxPeriod hw
  | SchedTime evtTime => let _ := schedTime self evtTime in hw
  end.

Definition perform_all (self : DumbHardwareScheduler) (hw : hardware)
  (cs : list scheduler_call) : hardware :=
  fold_left (perform self) cs hw.

End rpi.

(** ** A scripted stepper

    A concrete stepper type for the examples: it replays a list of step
    times and directions, and reports the non-positive time [0] once the
    list is used up. *)

Module Scripted.
Import motion.

Record ScriptedStepper : Type := mkScripted {
  s_base : AxisStepper;
  s_script : list (float * StepDirection)
}.

Definition scripted_nextStep (useEndstops : bool) (s : ScriptedStepper)
  : outcome ScriptedStepper :=
  match s_script s with
  | [] => Done (mkScripted
                  (mkAxisStepper (_index (s_base s)) zero (direction (s_base s))) [])
  | (t, d) :: rest => Done (mkScripted (mkAxisStepper (_index (s_base s)) t d) rest)
  end.

#[export] Instance Scripted_impl : AxisStepperImpl ScriptedStepper := {
  base := s_base;
  _nextStep := scripted_nextStep
}.

(** The path to follow is the script handed to [beginLine] or [beginArc]. *)
#[export] Instance Scripted_path
  : PathStepper (list (float * StepDirection)) unit unit ScriptedStepper := {
  beginLine := fun map _ _ s => Done (mkScripted (s_base s) map);
  beginArc := fun map _ _ _ _ _ _ _ s => Done (mkScripted (s_base s) map)
}.

Definition axis (i : Z) (t : float) : AxisStepper := mkAxisStepper i t StepForward.

End Scripted.

(** * Properties *)

(** ** Order facts on binary32 values *)

Section Float32Facts.

Local Ltac by_computation := first [done | vm_compute; congruence].

Lemma float_eq (x y : float) : repr x = repr y → x = y.
Proof.
  destruct x as [x Hx], y as [y Hy]; simpl; intros ->.
  f_equal. apply (proof_irrel _).
Qed.

Lemma SFcompare_finite_pos m1 e1 m2 e2 :
  SFcompare (S754_finite false m1 e1) (S754_finite false m2 e2) =
  Some (match (e1 ?= e2)%Z with
        | Lt => Lt | Gt => Gt | Eq => (m1 ?= m2)%positive end).
Proof. reflexivity. Qed.

Lemma positive_cases (t : float) :
  positive t = true →
  repr t = S754_infinity false ∨ ∃ m e, repr t = S754_finite false m e.
Proof.
  unfold positive, ltb. destruct t as [[s|[]| |[] m e] Hv]; simpl;
    try discriminate; eauto.
Qed.

Lemma finite_positive_positive (t : float) :
  finite_positive t = true → positive t = true.
Proof.
  unfold finite_positive, positive, ltb.
  destruct t as [[s|s| |[] m e] Hv]; by_computation.
Qed.

Lemma positive_not_le_zero (t : float) :
  positive t = true → leb t zero = false.
Proof.
  intros [Ht|(m & e & Ht)]%positive_cases; unfold leb; rewrite Ht; reflexivity.
Qed.

Lemma positive_not_nan (t : float) : positive t = true → isnan t = false.
Proof.
  intros [Ht|(m & e & Ht)]%positive_cases; unfold isnan; rewrite Ht; reflexivity.
Qed.

Lemma not_le_zero_positive (t : float) :
  leb t zero = false → isnan t = false → positive t = true.
Proof.
  unfold leb, isnan, positive, ltb.
  destruct t as [[s|[]| |[] m e] Hv]; by_computation.
Qed.

Lemma ltb_leb (x y : float) : ltb x y = true → leb x y = true.
Proof.
  unfold ltb, leb, SFltb, SFleb.
  destruct (SFcompare (repr x) (repr y)) as [[]|]; congruence.
Qed.

Lemma ltb_positive_l (x y : float) :
  ltb x y = true → leb x zero = false → positive x = true.
Proof.
  intros Hlt Hle. apply not_le_zero_positive; [done|].
  unfold ltb, isnan in *. destruct (repr x); try done.
Qed.

Lemma leb_refl_positive (t : float) : positive t = true → leb t t = true.
Proof.
  intros [Ht|(m & e & Ht)]%positive_cases; unfold leb, SFleb; rewrite Ht.
  - reflexivity.
  - rewrite SFcompare_finite_pos, Z.compare_refl, Pos.compare_refl. reflexivity.
Qed.

Lemma not_ltb_leb (x y : float) :
  positive x = true → positive y = true → ltb x y = false → leb y x = true.
Proof.
  intros [Hx|(m1 & e1 & Hx)]%positive_cases [Hy|(m2 & e2 & Hy)]%positive_cases;
    unfold ltb, leb, SFltb, SFleb; rewrite Hx, Hy; try by_computation.
  rewrite !SFcompare_finite_pos, (Z.compare_antisym e1 e2),
    (Pos.compare_antisym m1 m2).
  destruct (e1 ?= e2)%Z; simpl; try congruence.
  destruct (m1 ?= m2)%positive; simpl; congruence.
Qed.

Lemma leb_trans_positive (x y z : float) :
  positive x = true → positive y = true → positive z = true →
  leb x y = true → leb y z = true → leb x z = true.
Proof.
  intros [Hx|(m1 & e1 & Hx)]%positive_cases [Hy|(m2 & e2 & Hy)]%positive_cases
    [Hz|(m3 & e3 & Hz)]%positive_cases;
    unfold leb, SFleb; rewrite Hx, Hy, Hz; try by_computation.
  rewrite !SFcompare_finite_pos.
  destruct (Z.compare_spec e1 e2), (Z.compare_spec e2 e3),
    (Z.compare_spec e1 e3); try lia; try congruence.
  destruct (Pos.compare_spec m1 m2), (Pos.compare_spec m2 m3),
    (Pos.compare_spec m1 m3); try lia; congruence.
Qed.

Lemma ltb_leb_trans_positive (x y z : float) :
  positive x = true → positive y = true → positive z = true →
  leb x y = true → ltb y z = true → ltb x z = true.
Proof.
  intros [Hx|(m1 & e1 & Hx)]%positive_cases [Hy|(m2 & e2 & Hy)]%positive_cases
    [Hz|(m3 & e3 & Hz)]%positive_cases;
    unfold leb, ltb, SFleb, SFltb; rewrite Hx, Hy, Hz; try by_computation.
  rewrite !SFcompare_finite_pos.
  destruct (Z.compare_spec e1 e2), (Z.compare_spec e2 e3),
    (Z.compare_spec e1 e3); try lia; try congruence.
  destruct (Pos.compare_spec m1 m2), (Pos.compare_spec m2 m3),
    (Pos.compare_spec m1 m3); try lia; congruence.
Qed.

(** Two finite positive values are equal, or one is below the other. *)
Lemma finite_positive_trichotomy (x y : float) :
  finite_positive x = true → finite_positive y = true →
  x = y ∨ (ltb x y = true ∧ ltb y x = false) ∨ (ltb y x = true ∧ ltb x y = false).
Proof.
  unfold finite_positive. intros Hx Hy.
  destruct (repr x) as [| | |[] m1 e1] eqn:Ex; try discriminate.
  destruct (repr y) as [| | |[] m2 e2] eqn:Ey; try discriminate.
  unfold ltb, SFltb. rewrite Ex, Ey, !SFcompare_finite_pos.
  destruct (Z.compare_spec e1 e2), (Z.compare_spec e2 e1); try lia; auto.
  destruct (Pos.compare_spec m1 m2), (Pos.compare_spec m2 m1); try lia; auto.
  left. apply float_eq. congruence.
Qed.

Lemma leb_finite_positive_l (x y : float) :
  positive x = true → finite_positive y = true → leb x y = true →
  finite_positive x = true.
Proof.
  unfold finite_positive, leb, SFleb.
  intros [Hx|(m & e & Hx)]%positive_cases; rewrite Hx; [|done].
  destruct (repr y) as [| | |[] m2 e2]; done.
Qed.

Lemma ltb_irrefl (x : float) : ltb x x = false.
Proof.
  unfold ltb, SFltb. destruct (repr x) as [s|[]| |[] m e]; simpl; try done.
  - rewrite Z.compare_refl, Pos.compare_cont_refl. done.
  - rewrite Z.compare_refl, Pos.compare_cont_refl. done.
Qed.

End Float32Facts.

(** ** The scan of [getNextTime] *)

Section GetNextTimeFacts.
Import motion.
Context {T : Type} `{AxisStepperImpl T}.

Local Abbreviation tm a := (time (base a)).

Local Open Scope nat_scope.

(** The comparison of the running choice [a1] with the next stepper [a2],
    as one step of the scan. *)
Lemma getNextTime_step (axes : list T) (idx m1 : nat) (a1 a2 : T) :
  _AxisStepper__getNextTime axes idx = Some m1 →
  axes !! m1 = Some a1 → axes !! S idx = Some a2 →
  _AxisStepper__getNextTime axes (S idx) =
    Some (if leb (tm a1) zero then S idx
          else if leb (tm a2) zero then m1
          else if ltb (tm a1) (tm a2) || isnan (tm a2) then m1 else S idx).
Proof.
  intros Hrec H1 H2.
  change (_AxisStepper__getNextTime axes (S idx)) with
    (m ← _AxisStepper__getNextTime axes idx;
     a1 ← axes !! m; a2 ← axes !! S idx;
     if leb (tm a1) zero then Some (S idx)
     else if leb (tm a2) zero then Some m
     else if ltb (tm a1) (tm a2) || isnan (tm a2) then Some m else Some (S idx)).
  rewrite Hrec; simpl. rewrite H1; simpl. rewrite H2; simpl.
  repeat case_match; reflexivity.
Qed.

(** Inside the tuple the scan returns a position, and when a positive time
    occurs among the positions scanned, the chosen time is positive, at most
    every positive time scanned, and strictly below every positive time at a
    later position: the choice is the last position of the least positive
    time. *)
Lemma getNextTime_scan (axes : list T) (idx : nat) :
  idx < length axes →
  ∃ r c, _AxisStepper__getNextTime axes idx = Some r ∧ r ≤ idx ∧
         axes !! r = Some c ∧
         ∀ k a, k ≤ idx → axes !! k = Some a → positive (tm a) = true →
                positive (tm c) = true ∧ leb (tm c) (tm a) = true ∧
                (r < k → ltb (tm c) (tm a) = true).
Proof.
  induction idx as [|idx IH]; intros Hlen.
  - destruct (lookup_lt_is_Some_2 axes 0 Hlen) as [c Hc].
    exists 0, c. simpl. rewrite Hc. do 3 (split; [done|]).
    intros k a Hk Ha Hpa. assert (k = 0) by lia; subst k.
    assert (a = c) by congruence; subst a.
    split; [done|]. split; [by apply leb_refl_positive|lia].
  - destruct IH as (r & c & Hrec & Hr & Hc & Hmin); [lia|].
    destruct (lookup_lt_is_Some_2 axes (S idx) Hlen) as [a2 Ha2].
    rewrite (getNextTime_step axes idx r c a2 Hrec Hc Ha2).
    destruct (leb (tm c) zero) eqn:Hc0; [|destruct (leb (tm a2) zero) eqn:Ha0;
      [|destruct (ltb (tm c) (tm a2) || isnan (tm a2)) eqn:Hcmp]].
    + (* the running choice is non-positive: nothing positive so far *)
      exists (S idx), a2. do 3 (split; [done|]).
      intros k a Hk Ha Hpa. destruct (decide (k = S idx)) as [->|Hne].
      * assert (a = a2) by congruence; subst a.
        split; [done|]. split; [by apply leb_refl_positive|lia].
      * destruct (Hmin k a) as (Hpc & _); [lia|done|done|].
        apply positive_not_le_zero in Hpc; congruence.
    + (* the next stepper is non-positive: keep the running choice *)
      exists r, c. split; [done|]. split; [lia|]. split; [done|].
      intros k a Hk Ha Hpa. destruct (decide (k = S idx)) as [->|Hne].
      * assert (a = a2) by congruence; subst a.
        apply positive_not_le_zero in Hpa; congruence.
      * apply Hmin; [lia|done|done].
    + (* [m1.time < m2.time || isnan(m2.time)]: keep the running choice *)
      exists r, c. split; [done|]. split; [lia|]. split; [done|].
      intros k a Hk Ha Hpa. destruct (decide (k = S idx)) as [->|Hne].
      * assert (a = a2) by congruence; subst a.
        assert (Hlt : ltb (tm c) (tm a2) = true).
        { apply positive_not_nan in Hpa. by rewrite Hpa, orb_false_r in Hcmp. }
        split; [by eapply ltb_positive_l|]. split; [by apply ltb_leb|done].
      * apply Hmin; [lia|done|done].
    + (* otherwise the next stepper replaces the running choice *)
      apply orb_false_iff in Hcmp as [Hlt Hnan].
      assert (Hp2 : positive (tm a2) = true) by by apply not_le_zero_positive.
      exists (S idx), a2. do 3 (split; [done|]).
      intros k a Hk Ha Hpa. split; [done|]. split; [|lia].
      destruct (decide (k = S idx)) as [->|Hne].
      * assert (a = a2) by congruence; subst a. by apply leb_refl_positive.
      * destruct (Hmin k a) as (Hpc & Hle & _); [lia|done|done|].
        apply (leb_trans_positive _ (tm c)); auto.
        by apply not_ltb_leb.
Qed.

Lemma getNextTime_pair (a b : T) :
  getNextTime [a; b] =
    Some (if leb (tm a) zero then 1
          else if leb (tm b) zero then 0
          else if ltb (tm a) (tm b) || isnan (tm b) then 0 else 1).
Proof. unfold getNextTime; simpl. repeat case_match; reflexivity. Qed.

Lemma getNextTime_in_range (axes : list T) :
  axes ≠ [] → ∃ r c, getNextTime axes = Some r ∧ axes !! r = Some c.
Proof.
  intros Hne. destruct (getNextTime_scan axes (length axes - 1))
    as (r & c & Hr & _ & Hc & _).
  - destruct axes; [done|simpl; lia].
  - by exists r, c.
Qed.

(** A NaN time is not excluded by a non-positive one: the guards on
    [time <= 0] return "the other one" before NaN is looked at. *)
Lemma getNextTime_nan_vs_non_positive (a b : T) :
  isnan (tm a) = true → non_positive (tm b) = true →
  getNextTime [a; b] = Some 0 ∧ getNextTime [b; a] = Some 1.
Proof.
  unfold non_positive. intros Hnan Hb. rewrite !getNextTime_pair, Hb.
  assert (leb (tm a) zero = false) as ->; [|done].
  unfold isnan, leb in *. by destruct (repr (tm a)).
Qed.

(** C1: in a set of two axes whose times are finite, positive and distinct,
    [getNextTime] returns the axis with the smaller time, whichever of the
    two positions that axis has. *)
Theorem getNextTime_two_axes_smaller (a b : T) :
  finite_positive (tm a) = true → finite_positive (tm b) = true →
  tm a ≠ tm b →
  (ltb (tm a) (tm b) = true ∧
   getNextTime [a; b] = Some 0 ∧ getNextTime [b; a] = Some 1) ∨
  (ltb (tm b) (tm a) = true ∧
   getNextTime [a; b] = Some 1 ∧ getNextTime [b; a] = Some 0).
Proof.
  intros Ha Hb Hne. rewrite !getNextTime_pair.
  rewrite !(positive_not_le_zero (tm a)), !(positive_not_le_zero (tm b)),
    !(positive_not_nan (tm a)), !(positive_not_nan (tm b)), !orb_false_r
    by by apply finite_positive_positive.
  destruct (finite_positive_trichotomy _ _ Ha Hb) as [?|[[-> ->]|[-> ->]]];
    [done|by left|by right].
Qed.

(** C2, as the code has it: when two or more axes share the least finite
    positive time, [getNextTime] returns the one at the highest position
    among those tied: a later axis replaces the running choice unless the
    running time is strictly smaller. *)
Theorem getNextTime_tie_highest_index (axes : list T) (i k : nat) (a b : T) :
  i < k → axes !! i = Some a → axes !! k = Some b →
  finite_positive (tm a) = true → tm b = tm a →
  (∀ j c, axes !! j = Some c → finite_positive (tm c) = true →
          leb (tm a) (tm c) = true) →
  (∀ j c, k < j → axes !! j = Some c → tm c ≠ tm a) →
  getNextTime axes = Some k.
Proof.
  intros Hik Ha Hb Hfin Htie Hleast Hlast.
  pose proof (lookup_lt_Some _ _ _ Hb) as Hlen.
  destruct (getNextTime_scan axes (length axes - 1))
    as (r & c & Hr & Hrle & Hc & Hmin); [lia|].
  unfold getNextTime. rewrite Hr. f_equal.
  destruct (Hmin k b) as (Hpc & Hle & Hlt);
    [lia|done|apply finite_positive_positive; congruence|].
  rewrite Htie in Hle, Hlt.
  assert (Hfc : finite_positive (tm c) = true)
    by by apply (leb_finite_positive_l _ (tm a)).
  assert (Hca : tm c = tm a).
  { destruct (finite_positive_trichotomy _ _ Hfc Hfin) as [?|[[Hlt' _]|[Hlt' _]]];
      [done| |].
    - pose proof (Hleast r c Hc Hfc) as Hac.
      pose proof (ltb_leb_trans_positive (tm a) (tm c) (tm a)) as Habs.
      rewrite ltb_irrefl in Habs.
      discriminate Habs; auto using finite_positive_positive.
    - pose proof (ltb_leb_trans_positive (tm c) (tm a) (tm c)) as Habs.
      rewrite ltb_irrefl in Habs.
      discriminate Habs; auto using finite_positive_positive. }
  destruct (lt_eq_lt_dec r k) as [[Hrk| ->]|Hrk]; [|done|].
  - specialize (Hlt Hrk). rewrite Hca, ltb_irrefl in Hlt. done.
  - destruct (Hlast r c Hrk Hc Hca).
Qed.

(** C3, as the code has it: in a set with at least one axis whose time is
    positive, [getNextTime] never returns an axis whose time is NaN, nor one
    whose time is non-positive. *)
Theorem getNextTime_positive_excludes_nan (axes : list T) (k : nat) (a : T) :
  axes !! k = Some a → positive (tm a) = true →
  ∃ r c, getNextTime axes = Some r ∧ axes !! r = Some c ∧
         isnan (tm c) = false ∧ non_positive (tm c) = false.
Proof.
  intros Ha Hpa. pose proof (lookup_lt_Some _ _ _ Ha) as Hlen.
  destruct (getNextTime_scan axes (length axes - 1))
    as (r & c & Hr & _ & Hc & Hmin); [lia|].
  destruct (Hmin k a) as (Hpc & _); [lia|done|done|].
  exists r, c. repeat split; try done.
  - by apply positive_not_nan.
  - by apply positive_not_le_zero.
Qed.

(** C4: of two axes, one with a non-positive time and one with a finite
    positive time, [getNextTime] returns the finite positive one, in both
    orders. *)
Theorem getNextTime_non_positive_vs_finite (a b : T) :
  non_positive (tm a) = true → finite_positive (tm b) = true →
  getNextTime [a; b] = Some 1 ∧ getNextTime [b; a] = Some 0.
Proof.
  unfold non_positive. intros Ha Hb%finite_positive_positive.
  rewrite !getNextTime_pair, Ha, (positive_not_le_zero _ Hb). done.
Qed.

(** C5: of two axes, one with a NaN time and one with a finite positive
    time, [getNextTime] returns the finite positive one, in both orders. *)
Theorem getNextTime_nan_vs_finite (a b : T) :
  isnan (tm a) = true → finite_positive (tm b) = true →
  getNextTime [a; b] = Some 1 ∧ getNextTime [b; a] = Some 0.
Proof.
  intros Ha Hb%finite_positive_positive.
  rewrite !getNextTime_pair, Ha, (positive_not_le_zero _ Hb),
    (positive_not_nan _ Hb), orb_true_r.
  assert (leb (tm a) zero = false ∧ ltb (tm a) (tm b) = false) as [-> ->]; [|done].
  unfold isnan, leb, ltb in *. by destruct (repr (tm a)).
Qed.

(** C10: on a set of one axis [getNextTime] returns that axis, whatever its
    time is: no comparison takes place. *)
Theorem getNextTime_single_axis (a : T) : getNextTime [a] = Some 0.
Proof. reflexivity. Qed.

End GetNextTimeFacts.

(** ** The passes of [nextStep] and of the initialisers *)

Section CallOnAllFacts.
Import motion.
Context {T : Type} `{AxisStepperImpl T}.

Local Open Scope nat_scope.

Lemma outcome_bind_ret {A : Type} (m : outcome A) : m ≫= mret = m.
Proof. by destruct m. Qed.

Lemma to_size_t_nonneg (i : Z) : (0 ≤ to_size_t i)%Z.
Proof. unfold to_size_t, size_t_bits. apply Z.mod_pos_bound. lia. Qed.

Lemma callOnAll_ext (f g : nat → list T → outcome (list T)) (n : nat) (t : list T) :
  (∀ i t', f i t' = g i t') → __callOnAll n f t = __callOnAll n g t.
Proof.
  intros Hfg. induction n as [|n IH]; simpl; [done|].
  rewrite IH. destruct (__callOnAll n g t); simpl; auto.
Qed.

(** The pass of [nextStep] over the first [n] positions calls [_nextStep] on
    position [d] when it is among them, and does nothing else. *)
Lemma callOnAll_nextStep (n : nat) (d : Z) (useEndstops : bool) (t : list T) :
  (0 ≤ d)%Z →
  __callOnAll n (fun myIdx => _AxisStepper__nextStep myIdx d useEndstops) t =
    if decide (d < Z.of_nat n)%Z
    then with_ref (Z.to_nat d) (_nextStep useEndstops) t
    else mret t.
Proof.
  intros Hd. induction n as [|n IH]; simpl.
  - case_decide; [lia|done].
  - rewrite IH. unfold _AxisStepper__nextStep.
    destruct (decide (d < Z.of_nat n)%Z) as [Hlt|Hge].
    + rewrite decide_True by lia.
      destruct (with_ref _ _ t); simpl; [|done].
      by rewrite decide_False by lia.
    + simpl. destruct (decide (d = Z.of_nat n)) as [->|Hne].
      * rewrite decide_True by lia. by rewrite Nat2Z.id.
      * by rewrite decide_False by lia.
Qed.

Lemma nextStep_unfold (this : AxisStepper) (axes : list T) (useEndstops : bool) :
  nextStep this axes useEndstops =
    if decide (to_size_t (index this) < Z.of_nat (length axes))%Z
    then with_ref (Z.to_nat (to_size_t (index this))) (_nextStep useEndstops) axes
    else Done axes.
Proof. apply callOnAll_nextStep, to_size_t_nonneg. Qed.

(** C6: [nextStep] changes the axis at the position equal to the index of
    [this] and nothing else: when it returns, the tuple has the same length,
    every axis at another position is the same object as before, time and
    direction included, and the axis at that position is what its own
    [_nextStep] made of it. It ends in a failed [assert] only when that
    [_nextStep] does. *)
Theorem nextStep_frame (this : AxisStepper) (axes : list T) (useEndstops : bool) :
  match nextStep this axes useEndstops with
  | Done axes' =>
      length axes' = length axes ∧
      (∀ j, Z.of_nat j ≠ to_size_t (index this) → axes' !! j = axes !! j) ∧
      (∀ s, axes !! Z.to_nat (to_size_t (index this)) = Some s →
            ∃ s', _nextStep useEndstops s = Done s' ∧
                  axes' !! Z.to_nat (to_size_t (index this)) = Some s')
  | AssertionFailed =>
      ∃ s, axes !! Z.to_nat (to_size_t (index this)) = Some s ∧
           _nextStep useEndstops s = AssertionFailed
  end.
Proof.
  rewrite nextStep_unfold. pose proof (to_size_t_nonneg (index this)) as Hd.
  set (d := to_size_t (index this)) in *.
  case_decide as Hlt.
  - unfold with_ref.
    destruct (lookup_lt_is_Some_2 axes (Z.to_nat d)) as [s Hs]; [lia|].
    rewrite Hs. destruct (_nextStep useEndstops s) as [s'|] eqn:Hstep; simpl.
    + split; [apply length_insert|]. split.
      * intros j Hj. apply list_lookup_insert_ne. lia.
      * intros s0 Hs0. exists s'. split; [congruence|].
        apply list_lookup_insert_eq. lia.
    + by exists s.
  - split; [done|]. split; [done|].
    intros s Hs. apply lookup_lt_Some in Hs. lia.
Qed.

(** C7, as the code has it: [nextStep] with an index that matches no
    position of the set returns normally and leaves the set as it was; no
    [assert] guards the index. *)
Theorem nextStep_unmatched_index_noop
  (this : AxisStepper) (axes : list T) (useEndstops : bool) :
  (∀ j, j < length axes → Z.of_nat j ≠ to_size_t (index this)) →
  nextStep this axes useEndstops = Done axes.
Proof.
  intros Hno. rewrite nextStep_unfold.
  pose proof (to_size_t_nonneg (index this)) as Hd.
  case_decide as Hlt; [|done].
  destruct (Hno (Z.to_nat (to_size_t (index this)))); lia.
Qed.

(** A pass that calls [g] on the object at every position: when it returns,
    every position holds what [g] made of the object that was there; it
    fails only when [g] fails on one of them. *)
Lemma callOnAll_each (g : T → outcome T) (n : nat) (t : list T) :
  n ≤ length t →
  match __callOnAll n (fun i => with_ref i g) t with
  | Done t' =>
      length t' = length t ∧
      (∀ j s, j < n → t !! j = Some s → ∃ s', g s = Done s' ∧ t' !! j = Some s') ∧
      (∀ j, n ≤ j → t' !! j = t !! j)
  | AssertionFailed => ∃ j s, j < n ∧ t !! j = Some s ∧ g s = AssertionFailed
  end.
Proof.
  induction n as [|n IH]; intros Hn; simpl.
  - split; [done|]. split; [intros; lia|done].
  - specialize (IH ltac:(lia)).
    destruct (__callOnAll n _ t) as [t'|]; simpl.
    + destruct IH as (Hlen & Hdone & Hrest). unfold with_ref.
      destruct (lookup_lt_is_Some_2 t n) as [s Hs]; [lia|].
      rewrite (Hrest n), Hs by lia.
      destruct (g s) as [s'|] eqn:Hg; simpl.
      * split; [by rewrite length_insert|]. split.
        -- intros j s0 Hj Hs0. destruct (decide (j = n)) as [->|Hne].
           ++ exists s'. split; [congruence|].
              apply list_lookup_insert_eq. lia.
           ++ destruct (Hdone j s0) as (s0' & ? & ?); [lia|done|].
              exists s0'. split; [done|]. by rewrite list_lookup_insert_ne.
        -- intros j Hj. rewrite list_lookup_insert_ne by lia. apply Hrest. lia.
      * exists n, s. split; [lia|done].
    + destruct IH as (j & s & ? & ? & ?). exists j, s. split; [lia|done].
Qed.

(** Two method calls in a row through the same reference. *)
Lemma with_ref_twice (i : nat) (g1 g2 : T → outcome T) (t : list T) :
  (t' ← with_ref i g1 t; with_ref i g2 t') =
  with_ref i (fun s => s1 ← g1 s; g2 s1) t.
Proof.
  unfold with_ref. destruct (t !! i) as [s|] eqn:Hs; simpl; [|done].
  apply lookup_lt_Some in Hs.
  destruct (g1 s) as [s1|]; simpl; [|done].
  rewrite list_lookup_insert_eq by done.
  destruct (g2 s1) as [s2|]; simpl; [|done].
  by rewrite list_insert_insert_eq.
Qed.

Section InitFacts.
Context {CoordMapT Vector3f Vector4f : Type}
  `{PathStepper CoordMapT Vector3f Vector4f T}.

(** C8: [initAxisSteppers] calls [beginLine] and then [_nextStep] with the
    given [useEndstops] on every axis of the set: when it returns, every
    position holds the axis that was there, begun and advanced once; it ends
    in a failed [assert] only when one of these calls does.
    [initAxisArcSteppers] does the same with [beginArc]. *)
Theorem initAxisSteppers_begin_then_advance
  (steppers : list T) (useEndstops : bool) (map : CoordMapT) (curPos : list Z)
  (vel : Vector4f) (center u v : Vector3f) (arcRad arcVel extVel : float) :
  match initAxisSteppers steppers useEndstops map curPos vel with
  | Done steppers' =>
      length steppers' = length steppers ∧
      ∀ j s, steppers !! j = Some s →
        ∃ s1 s2, beginLine map curPos vel s = Done s1 ∧
                 _nextStep useEndstops s1 = Done s2 ∧ steppers' !! j = Some s2
  | AssertionFailed =>
      ∃ j s, steppers !! j = Some s ∧
        (s1 ← beginLine map curPos vel s; _nextStep useEndstops s1) = AssertionFailed
  end ∧
  match initAxisArcSteppers steppers useEndstops map curPos center u v
          arcRad arcVel extVel with
  | Done steppers' =>
      length steppers' = length steppers ∧
      ∀ j s, steppers !! j = Some s →
        ∃ s1 s2, beginArc map curPos center u v arcRad arcVel extVel s = Done s1 ∧
                 _nextStep useEndstops s1 = Done s2 ∧ steppers' !! j = Some s2
  | AssertionFailed =>
      ∃ j s, steppers !! j = Some s ∧
        (s1 ← beginArc map curPos center u v arcRad arcVel extVel s;
         _nextStep useEndstops s1) = AssertionFailed
  end.
Proof.
  assert (Hgen : ∀ begin : T → outcome T,
    match __callOnAll (length steppers)
            (fun i t => t' ← with_ref i begin t; with_ref i (_nextStep useEndstops) t')
            steppers with
    | Done steppers' =>
        length steppers' = length steppers ∧
        ∀ j s, steppers !! j = Some s →
          ∃ s1 s2, begin s = Done s1 ∧
                   _nextStep useEndstops s1 = Done s2 ∧ steppers' !! j = Some s2
    | AssertionFailed =>
        ∃ j s, steppers !! j = Some s ∧
          (s1 ← begin s; _nextStep useEndstops s1) = AssertionFailed
    end).
  { intros begin.
    rewrite (callOnAll_ext _
      (fun i => with_ref i (fun s => s1 ← begin s; _nextStep useEndstops s1)))
      by (intros; apply with_ref_twice).
    pose proof (callOnAll_each
      (fun s => s1 ← begin s; _nextStep useEndstops s1) (length steppers) steppers
      ltac:(lia)) as Heach.
    destruct (__callOnAll _ _ steppers) as [steppers'|].
    - destruct Heach as (Hlen & Hdone & _). split; [done|].
      intros j s Hs. destruct (Hdone j s) as (s2 & Hg & Hs2);
        [by eapply lookup_lt_Some|done|].
      destruct (begin s) as [s1|]; simpl in Hg; [|done].
      by exists s1, s2.
    - destruct Heach as (j & s & _ & ? & ?). by exists j, s. }
  split; apply Hgen.
Qed.

End InitFacts.
End CallOnAllFacts.

(** ** The dumb hardware scheduler *)

(** C9: [schedTime] returns the time it is given, which is a time at or
    after the requested one. *)
Theorem schedTime_identity (self : rpi.DumbHardwareScheduler) (t : rpi.time_point) :
  rpi.schedTime self t = t ∧ (t ≤ rpi.schedTime self t)%Z.
Proof. unfold rpi.schedTime. split; [reflexivity|lia]. Qed.

(** ** The claims at concrete axis sets *)

Module Examples.
Import motion Scripted.

Local Open Scope nat_scope.

(** Two axes of the base type, with next steps at 1.0 and 1.5. *)
Example getNextTime_earlier_first :
  getNextTime [axis 0 one; axis 1 one_and_half] = Some 0.
Proof. reflexivity. Qed.

Example getNextTime_earlier_second :
  getNextTime [axis 0 two; axis 1 one_and_half] = Some 1.
Proof. reflexivity. Qed.

(** With both axes finished the last one is returned, its time is
    non-positive. *)
Example getNextTime_all_finished :
  getNextTime [axis 0 zero; axis 1 minus_one] = Some 1.
Proof. reflexivity. Qed.

(** An empty tuple has no position to return. *)
Example getNextTime_empty : getNextTime (@nil AxisStepper) = None.
Proof. reflexivity. Qed.

(** A scripted axis 1 with steps at 1.5 and 2.0 to come is advanced; axis 0
    stays as it is. *)
Example nextStep_scripted :
  nextStep (axis 1 one)
    [mkScripted (axis 0 one) []; mkScripted (axis 1 one) [(one_and_half, StepForward); (two, StepBackward)]]
    false =
  Done [mkScripted (axis 0 one) [];
        mkScripted (mkAxisStepper 1 one_and_half StepForward) [(two, StepBackward)]].
Proof. reflexivity. Qed.

(** On steppers of the base type the matching axis runs into the [assert]
    of [AxisStepper::_nextStep]. *)
Example nextStep_base_class_asserts :
  nextStep (axis 1 one) [axis 0 one; axis 1 one] false = AssertionFailed.
Proof. reflexivity. Qed.

(** A negative index wraps around as a [size_t] and matches no position. *)
Example nextStep_negative_index :
  nextStep (axis (-1) one) [axis 0 one; axis 1 one] false
  = Done [axis 0 one; axis 1 one].
Proof. reflexivity. Qed.

(** A line move over two scripted axes: each one gets the script and takes
    its first step from it. *)
Example initAxisSteppers_scripted :
  initAxisSteppers
    [mkScripted (axis 0 zero) []; mkScripted (axis 1 zero) []]
    true [(one, StepForward); (two, StepForward)] [0%Z; 0%Z] tt =
  Done [mkScripted (axis 0 one) [(two, StepForward)];
        mkScripted (axis 1 one) [(two, StepForward)]].
Proof. reflexivity. Qed.

Lemma getNextTime_two_axes_smaller_witness :
  finite_positive one = true ∧ finite_positive two = true ∧ one ≠ two ∧
  ((ltb one two = true ∧
    getNextTime [axis 0 one; axis 1 two] = Some 0 ∧
    getNextTime [axis 1 two; axis 0 one] = Some 1) ∨
   (ltb two one = true ∧
    getNextTime [axis 0 one; axis 1 two] = Some 1 ∧
    getNextTime [axis 1 two; axis 0 one] = Some 0)).
Proof.
  split; [reflexivity|]. split; [reflexivity|]. split; [discriminate|].
  refine (getNextTime_two_axes_smaller (axis 0 one) (axis 1 two) eq_refl eq_refl _).
  discriminate.
Defined.

(** C2 fails on the code: two axes tied at 1.0, and the one at position 1
    is returned, not the one at position 0. *)
Lemma getNextTime_tie_returns_higher_index :
  time (axis 0 one) = time (axis 1 one) ∧
  finite_positive (time (axis 0 one)) = true ∧
  getNextTime [axis 0 one; axis 1 one] = Some 1 ∧
  getNextTime [axis 0 one; axis 1 one] ≠ Some 0.
Proof. repeat split; try reflexivity. discriminate. Qed.

Lemma getNextTime_tie_highest_index_witness :
  getNextTime [axis 0 one; axis 1 one; axis 2 two] = Some 1.
Proof.
  apply (getNextTime_tie_highest_index
           [axis 0 one; axis 1 one; axis 2 two] 0 1 (axis 0 one) (axis 1 one)).
  - lia.
  - reflexivity.
  - reflexivity.
  - reflexivity.
  - reflexivity.
  - intros [|[|[|j]]] c Hc Hfin; simpl in Hc; inversion Hc; reflexivity.
  - intros [|[|[|j]]] c Hj Hc; simpl in Hc; inversion Hc; try lia; discriminate.
Defined.

(** C3 fails on the code: a NaN axis before a non-positive axis (-1.0) is
    the one returned, though the set has an axis whose time is not NaN. *)
Lemma getNextTime_returns_nan_against_non_positive :
  isnan (time (axis 0 nan)) = true ∧
  isnan (time (axis 1 minus_one)) = false ∧
  non_positive (time (axis 1 minus_one)) = true ∧
  getNextTime [axis 0 nan; axis 1 minus_one] = Some 0 ∧
  getNextTime [axis 1 minus_one; axis 0 nan] = Some 1.
Proof. repeat split; reflexivity. Qed.

Lemma getNextTime_positive_excludes_nan_witness :
  ∃ r c, getNextTime [axis 0 nan; axis 1 one] = Some r ∧
         [axis 0 nan; axis 1 one] !! r = Some c ∧
         isnan (time (base c)) = false ∧ non_positive (time (base c)) = false.
Proof.
  exact (getNextTime_positive_excludes_nan
           [axis 0 nan; axis 1 one] 1 (axis 1 one) eq_refl eq_refl).
Defined.

Lemma getNextTime_non_positive_vs_finite_witness :
  non_positive minus_one = true ∧ finite_positive one = true ∧
  getNextTime [axis 0 minus_one; axis 1 one] = Some 1 ∧
  getNextTime [axis 1 one; axis 0 minus_one] = Some 0.
Proof.
  split; [reflexivity|]. split; [reflexivity|].
  exact (getNextTime_non_positive_vs_finite (axis 0 minus_one) (axis 1 one)
           eq_refl eq_refl).
Defined.

Lemma getNextTime_nan_vs_finite_witness :
  isnan nan = true ∧ finite_positive one = true ∧
  getNextTime [axis 0 nan; axis 1 one] = Some 1 ∧
  getNextTime [axis 1 one; axis 0 nan] = Some 0.
Proof.
  split; [reflexivity|]. split; [reflexivity|].
  exact (getNextTime_nan_vs_finite (axis 0 nan) (axis 1 one) eq_refl eq_refl).
Defined.

(** C7 fails on the code: index 5 matches neither of two axes, and the call
    returns with the set as it was. The axes are of the base type, whose
    [_nextStep] is an [assert(false)]: it is not reached. *)
Lemma nextStep_unmatched_index_returns :
  to_size_t (index (axis 5 two)) = 5%Z ∧
  nextStep (axis 5 two) [axis 0 one; axis 1 two] true
  = Done [axis 0 one; axis 1 two] ∧
  nextStep (axis 5 two) [axis 0 one; axis 1 two] true ≠ AssertionFailed.
Proof. repeat split; try reflexivity. discriminate. Qed.

Lemma nextStep_unmatched_index_noop_witness :
  nextStep (axis 5 two) [axis 0 one; axis 1 two] true
  = Done [axis 0 one; axis 1 two].
Proof.
  apply (nextStep_unmatched_index_noop (axis 5 two) [axis 0 one; axis 1 two] true).
  intros j Hj. simpl in Hj. vm_compute. destruct j as [|[|j]]; [discriminate|discriminate|lia].
Defined.

End Examples.

(** ** More on the selection *)

Section SelectionFacts.
Import motion.
Context {T : Type} `{AxisStepperImpl T}.

Local Abbreviation tm a := (time (base a)).

Local Open Scope nat_scope.

Lemma nan_not_le_zero (t : float) : isnan t = true → leb t zero = false.
Proof. unfold isnan, leb. by destruct (repr t). Qed.

Lemma non_positive_not_positive (t : float) :
  leb t zero = true → positive t = false.
Proof.
  intros Hle. destruct (positive t) eqn:Hp; [|done].
  apply positive_not_le_zero in Hp. congruence.
Qed.

Lemma neither_is_nan (t : float) :
  positive t = false → leb t zero = false → isnan t = true.
Proof.
  intros Hp Hle. destruct (isnan t) eqn:Hn; [done|].
  rewrite (not_le_zero_positive t Hle Hn) in Hp. done.
Qed.

(** X1: on a set that is not empty [getNextTime] returns a position inside
    the set. *)
Theorem getNextTime_returns_position (axes : list T) :
  axes ≠ [] → ∃ r, getNextTime axes = Some r ∧ r < length axes.
Proof.
  intros Hne. destruct (getNextTime_in_range axes Hne) as (r & c & Hr & Hc).
  exists r. split; [done|]. by eapply lookup_lt_Some.
Qed.

(** X2: when some axis of the set has a positive time, the axis returned has
    a positive time that is at most every positive time of the set, and
    strictly below every positive time at a later position. *)
Theorem getNextTime_least_positive (axes : list T) (k0 : nat) (a0 : T) :
  axes !! k0 = Some a0 → positive (tm a0) = true →
  ∃ r c, getNextTime axes = Some r ∧ axes !! r = Some c ∧
         positive (tm c) = true ∧
         ∀ k a, axes !! k = Some a → positive (tm a) = true →
                leb (tm c) (tm a) = true ∧ (r < k → ltb (tm c) (tm a) = true).
Proof.
  intros Ha0 Hp0. pose proof (lookup_lt_Some _ _ _ Ha0) as Hlen.
  destruct (getNextTime_scan axes (length axes - 1))
    as (r & c & Hr & _ & Hc & Hmin); [lia|].
  exists r, c. split; [done|]. split; [done|]. split.
  - destruct (Hmin k0 a0) as (? & _); [lia|done|done|done].
  - intros k a Ha Hpa. pose proof (lookup_lt_Some _ _ _ Ha).
    destruct (Hmin k a) as (_ & ? & ?); [lia|done|done|done].
Qed.

(** X6: a time of [+inf] is never preferred to a finite one: when some axis
    has a finite positive time, so has the axis returned. *)
Theorem getNextTime_finite_before_infinite (axes : list T) (k : nat) (a : T) :
  axes !! k = Some a → finite_positive (tm a) = true →
  ∃ r c, getNextTime axes = Some r ∧ axes !! r = Some c ∧
         finite_positive (tm c) = true.
Proof.
  intros Ha Hfin. pose proof (lookup_lt_Some _ _ _ Ha) as Hlen.
  destruct (getNextTime_scan axes (length axes - 1))
    as (r & c & Hr & _ & Hc & Hmin); [lia|].
  destruct (Hmin k a) as (Hpc & Hle & _);
    [lia|done|by apply finite_positive_positive|].
  exists r, c. split; [done|]. split; [done|].
  by apply (leb_finite_positive_l _ (tm a)).
Qed.

Lemma getNextTime_rec_all_non_positive (axes : list T) (idx : nat) :
  idx < length axes →
  (∀ k a, k ≤ idx → axes !! k = Some a → non_positive (tm a) = true) →
  _AxisStepper__getNextTime axes idx = Some idx.
Proof.
  unfold non_positive. induction idx as [|idx IH]; intros Hlen Hall.
  - destruct (lookup_lt_is_Some_2 axes 0 Hlen) as [c Hc]. simpl. by rewrite Hc.
  - destruct (lookup_lt_is_Some_2 axes idx) as [a1 Ha1]; [lia|].
    destruct (lookup_lt_is_Some_2 axes (S idx) Hlen) as [a2 Ha2].
    rewrite (getNextTime_step axes idx idx a1 a2); [|apply IH|done|done].
    + by rewrite (Hall idx a1 ltac:(lia) Ha1).
    + lia.
    + intros k a ? ?. apply (Hall k a); [lia|done].
Qed.

(** X3: when every axis has a non-positive time (the move is over),
    [getNextTime] returns the last axis of the set. *)
Theorem getNextTime_all_non_positive (axes : list T) :
  axes ≠ [] →
  (∀ k a, axes !! k = Some a → non_positive (tm a) = true) →
  getNextTime axes = Some (length axes - 1).
Proof.
  intros Hne Hall. apply getNextTime_rec_all_non_positive.
  - destruct axes; [done|simpl; lia].
  - intros k a _ Ha. by apply (Hall k a).
Qed.

(** X4: on a set without NaN times, the time of the axis returned is
    non-positive exactly when the time of every axis is: the caller's test
    for the end of the move is sound and complete there. *)
Theorem getNextTime_non_positive_iff_all (axes : list T) (r : nat) (c : T) :
  (∀ k a, axes !! k = Some a → isnan (tm a) = false) →
  getNextTime axes = Some r → axes !! r = Some c →
  non_positive (tm c) = true ↔
  ∀ k a, axes !! k = Some a → non_positive (tm a) = true.
Proof.
  unfold non_positive. intros Hnonan Hr Hc. split.
  - intros Hle k a Ha. destruct (leb (tm a) zero) eqn:Hale; [done|].
    pose proof (not_le_zero_positive _ Hale (Hnonan k a Ha)) as Hpa.
    pose proof (lookup_lt_Some _ _ _ Ha) as Hlen.
    destruct (getNextTime_scan axes (length axes - 1))
      as (r' & c' & Hr' & _ & Hc' & Hmin); [lia|].
    unfold getNextTime in Hr. rewrite Hr' in Hr.
    assert (r' = r) by congruence; subst r'.
    assert (c' = c) by congruence; subst c'.
    destruct (Hmin k a) as (Hpc & _); [lia|done|done|].
    apply positive_not_le_zero in Hpc. congruence.
  - intros Hall. by apply (Hall r c).
Qed.

Lemma getNextTime_rec_keeps_nan (axes : list T) (idx : nat) :
  idx < length axes →
  (∀ k a, k ≤ idx → axes !! k = Some a → positive (tm a) = false) →
  ∃ r c, _AxisStepper__getNextTime axes idx = Some r ∧ r ≤ idx ∧
         axes !! r = Some c ∧
         ∀ k a, k ≤ idx → axes !! k = Some a → isnan (tm a) = true →
                isnan (tm c) = true.
Proof.
  induction idx as [|idx IH]; intros Hlen Hnopos.
  - destruct (lookup_lt_is_Some_2 axes 0 Hlen) as [c Hc].
    exists 0, c. simpl. rewrite Hc. do 3 (split; [done|]).
    intros k a Hk Ha Hnan. assert (k = 0) by lia; subst k. congruence.
  - destruct IH as (r & c & Hrec & Hr & Hc & Hkeep);
      [lia|intros k a ? ?; apply (Hnopos k a); [lia|done]|].
    destruct (lookup_lt_is_Some_2 axes (S idx) Hlen) as [a2 Ha2].
    rewrite (getNextTime_step axes idx r c a2 Hrec Hc Ha2).
    destruct (leb (tm c) zero) eqn:Hc0; [|destruct (leb (tm a2) zero) eqn:Ha0].
    + exists (S idx), a2. do 3 (split; [done|]).
      intros k a Hk Ha Hnan. destruct (decide (k = S idx)) as [->|Hne];
        [congruence|].
      specialize (Hkeep k a ltac:(lia) Ha Hnan).
      apply nan_not_le_zero in Hkeep. congruence.
    + exists r, c. split; [done|]. split; [lia|]. split; [done|].
      intros k a Hk Ha Hnan. destruct (decide (k = S idx)) as [->|Hne].
      * assert (a = a2) by congruence; subst a.
        apply nan_not_le_zero in Hnan. congruence.
      * apply (Hkeep k a); [lia|done|done].
    + assert (Hn2 : isnan (tm a2) = true)
        by (apply neither_is_nan; [by apply (Hnopos (S idx) a2)|done]).
      assert (Hnc : isnan (tm c) = true)
        by (apply neither_is_nan; [apply (Hnopos r c); [lia|done]|done]).
      rewrite Hn2, orb_true_r.
      exists r, c. split; [done|]. split; [lia|]. by split.
Qed.

(** X5: NaN is not excluded by non-positive times: in a set without a
    positive time, as soon as one axis has a NaN time the axis returned has
    a NaN time. *)
Theorem getNextTime_nan_among_non_positive (axes : list T) (k : nat) (a : T) :
  (∀ j b, axes !! j = Some b → positive (tm b) = false) →
  axes !! k = Some a → isnan (tm a) = true →
  ∃ r c, getNextTime axes = Some r ∧ axes !! r = Some c ∧ isnan (tm c) = true.
Proof.
  intros Hnopos Ha Hnan. pose proof (lookup_lt_Some _ _ _ Ha) as Hlen.
  destruct (getNextTime_rec_keeps_nan axes (length axes - 1))
    as (r & c & Hr & _ & Hc & Hkeep); [lia|intros j b _ Hb; by apply (Hnopos j b)|].
  exists r, c. split; [done|]. split; [done|].
  apply (Hkeep k a); [lia|done|done].
Qed.

End SelectionFacts.

Section SelectionByTimes.
Import motion.
Context {T1 T2 : Type} `{AxisStepperImpl T1} `{AxisStepperImpl T2}.

Local Open Scope nat_scope.

Lemma getNextTime_rec_times (axes1 : list T1) (axes2 : list T2) (idx : nat) :
  (fun a => time (base a)) <$> axes1 = (fun a => time (base a)) <$> axes2 →
  _AxisStepper__getNextTime axes1 idx = _AxisStepper__getNextTime axes2 idx.
Proof.
  intros Htimes.
  assert (Hlook : ∀ i,
    (fun a => time (base a)) <$> axes1 !! i = (fun a => time (base a)) <$> axes2 !! i)
    by (intros i; by rewrite <- !list_lookup_fmap, Htimes).
  induction idx as [|idx IH].
  - simpl. specialize (Hlook 0).
    destruct (axes1 !! 0), (axes2 !! 0); simpl in *; congruence.
  - cbn [_AxisStepper__getNextTime]. rewrite IH.
    destruct (_AxisStepper__getNextTime axes2 idx) as [m1|]; simpl; [|done].
    pose proof (Hlook m1) as Hm1. pose proof (Hlook (S idx)) as Hs.
    destruct (axes1 !! m1), (axes2 !! m1); simpl in *; try congruence.
    destruct (axes1 !! S idx), (axes2 !! S idx); simpl in *; try congruence.
    injection Hm1 as ->. injection Hs as ->. done.
Qed.

(** X7: the selection reads the times only: two sets, of any stepper types,
    with the same times at the same positions give the same position,
    whatever the indices, the directions and the rest of the steppers'
    state. *)
Theorem getNextTime_depends_on_times_only (axes1 : list T1) (axes2 : list T2) :
  (fun a => time (base a)) <$> axes1 = (fun a => time (base a)) <$> axes2 →
  getNextTime axes1 = getNextTime axes2.
Proof.
  intros Htimes. unfold getNextTime.
  assert (length axes1 = length axes2) as ->
    by (rewrite <- (length_fmap (fun a => time (base a)) axes1), Htimes;
        apply length_fmap).
  by apply getNextTime_rec_times.
Qed.

End SelectionByTimes.

(** ** More on [nextStep] *)

Section NextStepFacts.
Import motion.
Context {T : Type} `{AxisStepperImpl T}.

Local Open Scope nat_scope.

Lemma with_ref_length (i : nat) (g : T → outcome T) (t t' : list T) :
  with_ref i g t = Done t' → length t' = length t.
Proof.
  unfold with_ref. destruct (t !! i) as [s|]; [|done].
  destruct (g s) as [s'|]; simpl; [|done].
  intros [= <-]. apply length_insert.
Qed.

Lemma with_ref_commute (i j : nat) (g1 g2 : T → outcome T) (t : list T) :
  i ≠ j →
  (t1 ← with_ref i g1 t; with_ref j g2 t1) =
  (t2 ← with_ref j g2 t; with_ref i g1 t2).
Proof.
  intros Hij. unfold with_ref.
  destruct (t !! i) as [si|] eqn:Hi, (t !! j) as [sj|] eqn:Hj; simpl.
  - destruct (g1 si) as [si'|] eqn:H1, (g2 sj) as [sj'|] eqn:H2; simpl;
      rewrite ?list_lookup_insert_ne, ?Hi, ?Hj by done; simpl;
      rewrite ?H1, ?H2; simpl; try done.
    by rewrite list_insert_insert_ne.
  - destruct (g1 si) as [si'|]; simpl; [|done].
    by rewrite list_lookup_insert_ne, Hj by done.
  - destruct (g2 sj) as [sj'|]; simpl; [|done].
    by rewrite list_lookup_insert_ne, Hi by done.
  - done.
Qed.

(** X8: when every axis carries its own position as index, advancing the
    axis that [getNextTime] returned advances exactly that axis: the set
    comes back with the chosen position replaced by what [_nextStep] made of
    it, or the call fails as that [_nextStep] does. *)
Theorem nextStep_advances_selected (axes : list T) (useEndstops : bool) :
  axes ≠ [] →
  (Z.of_nat (length axes) ≤ 2 ^ size_t_bits)%Z →
  (∀ j b, axes !! j = Some b → index (base b) = Z.of_nat j) →
  ∃ r a, getNextTime axes = Some r ∧ axes !! r = Some a ∧
         nextStep (base a) axes useEndstops =
           (s' ← _nextStep useEndstops a; Done (<[r:=s']> axes)).
Proof.
  intros Hne Hlen Hidx.
  destruct (getNextTime_in_range axes Hne) as (r & a & Hr & Ha).
  exists r, a. split; [done|]. split; [done|].
  pose proof (lookup_lt_Some _ _ _ Ha) as Hrlen.
  rewrite nextStep_unfold, (Hidx r a Ha). unfold to_size_t.
  rewrite Z.mod_small by lia.
  rewrite decide_True by lia. unfold with_ref. by rewrite Nat2Z.id, Ha.
Qed.

(** X9: a negative index is converted to a [size_t] beyond every position:
    [nextStep] on a stepper with a negative index leaves the set as it is
    and returns. *)
Theorem nextStep_negative_index_noop
  (this : AxisStepper) (axes : list T) (useEndstops : bool) :
  (- 2 ^ 31 ≤ index this < 0)%Z →
  (Z.of_nat (length axes) ≤ 2 ^ 31)%Z →
  nextStep this axes useEndstops = Done axes.
Proof.
  intros Hneg Hlen. rewrite nextStep_unfold.
  assert (to_size_t (index this) = (index this + 2 ^ 32)%Z) as ->.
  { unfold to_size_t, size_t_bits.
    rewrite <- (Z.mod_add _ 1) by lia. apply Z.mod_small. lia. }
  by rewrite decide_False by lia.
Qed.

(** X11: two calls of [nextStep] for the same index advance that axis
    twice and touch nothing else. *)
Theorem nextStep_twice
  (this : AxisStepper) (axes : list T) (useEndstops : bool) (s : T) :
  axes !! Z.to_nat (to_size_t (index this)) = Some s →
  (axes1 ← nextStep this axes useEndstops; nextStep this axes1 useEndstops) =
  (s1 ← _nextStep useEndstops s; s2 ← _nextStep useEndstops s1;
   Done (<[Z.to_nat (to_size_t (index this)):=s2]> axes)).
Proof.
  intros Hs. pose proof (lookup_lt_Some _ _ _ Hs) as Hlen.
  pose proof (to_size_t_nonneg (index this)) as Hd.
  rewrite nextStep_unfold, decide_True by lia.
  unfold with_ref at 1. rewrite Hs.
  destruct (_nextStep useEndstops s) as [s1|]; simpl; [|done].
  rewrite nextStep_unfold, length_insert, decide_True by lia.
  unfold with_ref. rewrite list_lookup_insert_eq by done.
  destruct (_nextStep useEndstops s1) as [s2|]; simpl; [|done].
  by rewrite list_insert_insert_eq.
Qed.

(** X12: the axes are independent: two calls of [nextStep] for different
    indices give the same set, or fail alike, in either order. *)
Theorem nextStep_commute
  (this1 this2 : AxisStepper) (axes : list T) (useEndstops1 useEndstops2 : bool) :
  to_size_t (index this1) ≠ to_size_t (index this2) →
  (axes1 ← nextStep this1 axes useEndstops1; nextStep this2 axes1 useEndstops2) =
  (axes2 ← nextStep this2 axes useEndstops2; nextStep this1 axes2 useEndstops1).
Proof.
  intros Hne.
  pose proof (to_size_t_nonneg (index this1)) as Hd1.
  pose proof (to_size_t_nonneg (index this2)) as Hd2.
  set (d1 := to_size_t (index this1)) in *.
  set (d2 := to_size_t (index this2)) in *.
  assert (Hinner : ∀ (this : AxisStepper) ue (m : outcome (list T)),
    (∀ t', m = Done t' → length t' = length axes) →
    (t' ← m; nextStep this t' ue) =
    (t' ← m; if decide (to_size_t (index this) < Z.of_nat (length axes))%Z
             then with_ref (Z.to_nat (to_size_t (index this))) (_nextStep ue) t'
             else Done t')).
  { intros this ue [t'|] Hm; simpl; [|done].
    by rewrite nextStep_unfold, (Hm t' eq_refl). }
  rewrite (nextStep_unfold this1 axes), (nextStep_unfold this2 axes).
  fold d1 d2.
  rewrite (Hinner this2), (Hinner this1); fold d1 d2.
  - destruct (decide (d1 < Z.of_nat (length axes))%Z),
      (decide (d2 < Z.of_nat (length axes))%Z); simpl.
    + apply with_ref_commute. lia.
    + by destruct (with_ref (Z.to_nat d1) _ axes).
    + by destruct (with_ref (Z.to_nat d2) _ axes).
    + done.
  - intros t'. case_decide; [apply with_ref_length|by intros [= <-]].
  - intros t'. case_decide; [apply with_ref_length|by intros [= <-]].
Qed.

End NextStepFacts.

Section BaseClassFacts.
Import motion.


End BaseClassFacts.

(** ** The scheduler's calls to the GPIO layer *)

Lemma perform_all_from (self : rpi.DumbHardwareScheduler) (hw : rpi.hardware)
  (cs : list rpi.scheduler_call) :
  rpi.perform_all self hw cs =
  hw ++ omap (fun c => match c with
                       | rpi.Queue e =>
                           Some (rpi.mitpi_setPinState (rpi.pinId e) (rpi.state e))
                       | _ => None
                       end) cs.
Proof.
  unfold rpi.perform_all. revert hw.
  induction cs as [|c cs IH]; intros hw; simpl.
  - by rewrite app_nil_r.
  - rewrite IH. destruct c; simpl; [|done|done].
    unfold rpi.queue. by rewrite <- app_assoc.
Qed.

(** X13: whatever sequence of [queue], [queuePwm] and [schedTime] calls a
    freshly constructed scheduler gets, the GPIO layer sees [init] and then
    one [setPinState] per queued event, in the order of the calls and
    whatever the times of the events are; [queuePwm] and [schedTime] reach
    no pin. *)
Theorem perform_all_trace (hw : rpi.hardware) (cs : list rpi.scheduler_call) :
  rpi.perform_all (rpi.DumbHardwareScheduler_new hw).1
                  (rpi.DumbHardwareScheduler_new hw).2 cs =
  hw ++ rpi.mitpi_init ::
    omap (fun c => match c with
                   | rpi.Queue e =>
                       Some (rpi.mitpi_setPinState (rpi.pinId e) (rpi.state e))
                   | _ => None
                   end) cs.
Proof.
  rewrite perform_all_from. unfold rpi.DumbHardwareScheduler_new; simpl.
  by rewrite <- app_assoc.
Qed.

(** ** Step directions *)

(** X14: a direction survives the trip through its signed value, as an
    integer and as a [float]. *)
Theorem stepDir_round_trip (dir : motion.StepDirection) :
  motion.stepDirFromSign (motion.stepDirToSigned dir) = dir ∧
  motion.stepDirFromSign_float (motion.stepDirToSigned_float dir) = dir.
Proof. by destruct dir. Qed.

(** X15: the signed value of the direction of an integer is its sign,
    except that zero counts as forward. *)
Theorem stepDirToSigned_FromSign (x : Z) :
  motion.stepDirToSigned (motion.stepDirFromSign x) =
  if (x =? 0)%Z then 1%Z else Z.sgn x.
Proof.
  unfold motion.stepDirFromSign.
  destruct (Z.ltb_spec x 0), (Z.eqb_spec x 0); simpl; lia.
Qed.

(** X16: a [float] is a forward direction exactly when it is NaN or at
    least zero, [-0.0] included; only values below zero are backward. *)
Theorem stepDirFromSign_float_forward (x : float) :
  motion.stepDirFromSign_float x = motion.StepForward ↔
  isnan x = true ∨ leb zero x = true.
Proof.
  unfold motion.stepDirFromSign_float, isnan, leb, ltb.
  destruct x as [[s|[]| |[] m e] Hv]; simpl; vm_compute; intuition congruence.
Qed.

(** ** The further properties at concrete axis sets *)

Module MoreExamples.
Import motion Scripted.

Local Open Scope nat_scope.

Lemma getNextTime_returns_position_witness :
  ∃ r, getNextTime [axis 0 two; axis 1 one] = Some r ∧
       r < length [axis 0 two; axis 1 one].
Proof.
  apply (getNextTime_returns_position [axis 0 two; axis 1 one]). discriminate.
Defined.

Lemma getNextTime_least_positive_witness :
  ∃ r c, getNextTime [axis 0 two; axis 1 nan; axis 2 one; axis 3 zero] = Some r ∧
         [axis 0 two; axis 1 nan; axis 2 one; axis 3 zero] !! r = Some c ∧
         positive (time (base c)) = true ∧
         ∀ k a, [axis 0 two; axis 1 nan; axis 2 one; axis 3 zero] !! k = Some a →
                positive (time (base a)) = true →
                leb (time (base c)) (time (base a)) = true ∧
                (r < k → ltb (time (base c)) (time (base a)) = true).
Proof.
  exact (getNextTime_least_positive
           [axis 0 two; axis 1 nan; axis 2 one; axis 3 zero] 0 (axis 0 two)
           eq_refl eq_refl).
Defined.

Lemma getNextTime_finite_before_infinite_witness :
  ∃ r c, getNextTime [axis 0 infinity; axis 1 two; axis 2 infinity] = Some r ∧
         [axis 0 infinity; axis 1 two; axis 2 infinity] !! r = Some c ∧
         finite_positive (time (base c)) = true.
Proof.
  exact (getNextTime_finite_before_infinite
           [axis 0 infinity; axis 1 two; axis 2 infinity] 1 (axis 1 two)
           eq_refl eq_refl).
Defined.

Lemma getNextTime_all_non_positive_witness :
  getNextTime [axis 0 zero; axis 1 minus_one; axis 2 zero] = Some 2.
Proof.
  apply (getNextTime_all_non_positive [axis 0 zero; axis 1 minus_one; axis 2 zero]).
  - discriminate.
  - intros [|[|[|k]]] a Ha; simpl in Ha; inversion Ha; reflexivity.
Defined.

Lemma getNextTime_non_positive_iff_all_witness :
  non_positive (time (base (axis 1 minus_one))) = true ↔
  ∀ k a, [axis 0 zero; axis 1 minus_one] !! k = Some a →
         non_positive (time (base a)) = true.
Proof.
  refine (getNextTime_non_positive_iff_all
            [axis 0 zero; axis 1 minus_one] 1 (axis 1 minus_one) _ eq_refl eq_refl).
  intros [|[|k]] a Ha; simpl in Ha; inversion Ha; reflexivity.
Defined.

Lemma getNextTime_nan_among_non_positive_witness :
  ∃ r c, getNextTime [axis 0 minus_one; axis 1 nan; axis 2 zero] = Some r ∧
         [axis 0 minus_one; axis 1 nan; axis 2 zero] !! r = Some c ∧
         isnan (time (base c)) = true.
Proof.
  refine (getNextTime_nan_among_non_positive
            [axis 0 minus_one; axis 1 nan; axis 2 zero] 1 (axis 1 nan)
            _ eq_refl eq_refl).
  intros [|[|[|j]]] b Hb; simpl in Hb; inversion Hb; reflexivity.
Defined.

Lemma getNextTime_depends_on_times_only_witness :
  getNextTime [axis 0 two; axis 1 one] =
  getNextTime [mkScripted (mkAxisStepper 7 two StepBackward) [(one, StepForward)];
               mkScripted (axis 9 one) []].
Proof.
  exact (getNextTime_depends_on_times_only
           [axis 0 two; axis 1 one]
           [mkScripted (mkAxisStepper 7 two StepBackward) [(one, StepForward)];
            mkScripted (axis 9 one) []]
           eq_refl).
Defined.

Lemma nextStep_advances_selected_witness :
  ∃ r a,
    getNextTime [mkScripted (axis 0 two) []; mkScripted (axis 1 one) [(two, StepBackward)]]
      = Some r ∧
    [mkScripted (axis 0 two) []; mkScripted (axis 1 one) [(two, StepBackward)]] !! r
      = Some a ∧
    nextStep (base a)
      [mkScripted (axis 0 two) []; mkScripted (axis 1 one) [(two, StepBackward)]] true =
    (s' ← _nextStep true a;
     Done (<[r:=s']>
       [mkScripted (axis 0 two) []; mkScripted (axis 1 one) [(two, StepBackward)]])).
Proof.
  apply (nextStep_advances_selected
    [mkScripted (axis 0 two) []; mkScripted (axis 1 one) [(two, StepBackward)]] true).
  - discriminate.
  - vm_compute. discriminate.
  - intros [|[|j]] b Hb; simpl in Hb; inversion Hb; reflexivity.
Defined.

Lemma nextStep_negative_index_noop_witness :
  nextStep (axis (-3) one) [axis 0 one; axis 1 two] false
  = Done [axis 0 one; axis 1 two].
Proof.
  apply (nextStep_negative_index_noop (axis (-3) one) [axis 0 one; axis 1 two] false).
  - vm_compute. split; [discriminate|reflexivity].
  - vm_compute. discriminate.
Defined.


Lemma nextStep_twice_witness :
  (axes1 ← nextStep (axis 0 one)
             [mkScripted (axis 0 one) [(two, StepForward)]; mkScripted (axis 1 one) []]
             false;
   nextStep (axis 0 one) axes1 false) =
  (s1 ← _nextStep false (mkScripted (axis 0 one) [(two, StepForward)]);
   s2 ← _nextStep false s1;
   Done (<[Z.to_nat (to_size_t (index (axis 0 one))):=s2]>
     [mkScripted (axis 0 one) [(two, StepForward)]; mkScripted (axis 1 one) []])).
Proof.
  exact (nextStep_twice (axis 0 one)
    [mkScripted (axis 0 one) [(two, StepForward)]; mkScripted (axis 1 one) []]
    false (mkScripted (axis 0 one) [(two, StepForward)]) eq_refl).
Defined.

Lemma nextStep_commute_witness :
  (axes1 ← nextStep (axis 0 one)
             [mkScripted (axis 0 one) [(two, StepForward)]; mkScripted (axis 1 one) []]
             false;
   nextStep (axis 1 one) axes1 true) =
  (axes2 ← nextStep (axis 1 one)
             [mkScripted (axis 0 one) [(two, StepForward)]; mkScripted (axis 1 one) []]
             true;
   nextStep (axis 0 one) axes2 false).
Proof.
  apply (nextStep_commute (axis 0 one) (axis 1 one)
    [mkScripted (axis 0 one) [(two, StepForward)]; mkScripted (axis 1 one) []]
    false true).
  vm_compute. discriminate.
Defined.

End MoreExamples.
